(** * GA-Practice: the two Flask demos, [hello.py] and [app.py]

    A shallow embedding of
    - [lessons/optional/deploying-models-flask/hello.py] (the spam service) and
    - [lessons/required/logistic-regression/practice/app.py] (the bank service).

    Both scripts are glue: they load a table with pandas, fit scikit-learn
    estimators at import time, and register Flask views that read the module
    globals. The glue is embedded line by line. pandas, scikit-learn and the
    parts of Flask that the scripts only call into are interfaces (type
    classes); what a proof needs to know about them is stated as a named
    contract and appears as a hypothesis of the theorem that uses it. *)

From Stdlib Require Import List String Ascii Bool Arith PeanoNat Lia ZArith QArith.
From Stdlib Require Import DecimalString.
Import ListNotations.
Local Open Scope string_scope.
Local Open Scope list_scope.
Local Open Scope nat_scope.

Set Implicit Arguments.

(** ** Python values that cross the library boundary *)

(** Exceptions the two scripts can meet. The first three are werkzeug HTTP
    exceptions and carry a status code; the others are ordinary Python
    exceptions. *)
Inductive exn : Type :=
| BadRequestKeyError (key : string)
| NotFound
| MethodNotAllowed
| TemplateNotFound (name : string)
| KeyError (key : string)
| IndexError
| ValueError (msg : string)
| TypeError (msg : string)
| FileNotFoundError (path : string).

(** [HTTPException.code] for the werkzeug classes, [None] for the rest. *)
Definition http_code (e : exn) : option nat :=
  match e with
  | BadRequestKeyError _ => Some 400
  | NotFound => Some 404
  | MethodNotAllowed => Some 405
  | _ => None
  end.

(** The outcome of a Python expression: a value, or a raised exception. *)
Inductive Result (A : Type) : Type :=
| Ok (a : A)
| Raise (e : exn).
Arguments Ok {A} a.
Arguments Raise {A} e.

Definition rbind {A B} (r : Result A) (k : A -> Result B) : Result B :=
  match r with
  | Ok a => k a
  | Raise e => Raise e
  end.

Declare Scope result_scope.
Delimit Scope result_scope with result.
Notation "x <- c ;; k" := (rbind c (fun x => k))
  (at level 61, c at next level, right associativity) : result_scope.
Notation "' p <- c ;; k" := (rbind c (fun x => match x with p => k end))
  (at level 61, p pattern, c at next level, right associativity) : result_scope.

(** A view runs against the module globals [G]: it may read them, could
    rebind them, and either returns or raises. *)
Definition M (G A : Type) : Type := G -> Result A * G.

Definition ret {G A} (a : A) : M G A := fun g => (Ok a, g).
Definition raise {G A} (e : exn) : M G A := fun g => (Raise e, g).
Definition bind {G A B} (m : M G A) (k : A -> M G B) : M G B :=
  fun g => match m g with
           | (Ok a, g') => k a g'
           | (Raise e, g') => (Raise e, g')
           end.
(** Reading one module global. *)
Definition global {G A} (f : G -> A) : M G A := fun g => (Ok (f g), g).
(** A library call that may raise. *)
Definition call {G A} (r : Result A) : M G A := fun g => (r, g).

Declare Scope view_scope.
Delimit Scope view_scope with view.
Notation "x <- c ;; k" := (bind c (fun x => k))
  (at level 61, c at next level, right associativity) : view_scope.

(** A pandas Series of strings (a text column, a label column). *)
Definition Series : Type := list string.

(** [s[i]] on a sequence. *)
Definition getitem_index {A} (s : list A) (i : nat) : Result A :=
  match nth_error s i with
  | Some a => Ok a
  | None => Raise IndexError
  end.

(** numpy float64, as far as the scripts can observe it: not-a-number, or
    an exact fraction (the one float in either script is a mean of booleans,
    see [accuracy_score]). *)
Inductive float : Type :=
| NaN
| Real (q : Q).

(** ** werkzeug: requests and responses *)

Inductive Method : Type := GET | HEAD | OPTIONS | POST | PUT | DELETE.

Definition Method_eqb (a b : Method) : bool :=
  match a, b with
  | GET, GET | HEAD, HEAD | OPTIONS, OPTIONS
  | POST, POST | PUT, PUT | DELETE, DELETE => true
  | _, _ => false
  end.

(** [request.args] is a MultiDict: an ordered list of pairs in which a key
    may repeat. *)
Definition MultiDict : Type := list (string * string).

Record Request : Type := mkRequest {
  method : Method;
  path : string;
  args : MultiDict
}.

(** [MultiDict.__getitem__]: the first value of the key, or
    [BadRequestKeyError]. *)
Fixpoint getitem (d : MultiDict) (key : string) : Result string :=
  match d with
  | [] => Raise (BadRequestKeyError key)
  | (k, v) :: d' => if String.eqb k key then Ok v else getitem d' key
  end.

(** A Python dict with string keys and string values, in insertion order. *)
Definition pydict : Type := list (string * string).

Inductive Body : Type :=
| Html (s : string)
| Json (d : pydict)
| File (content : string)
| Empty.

Record Response : Type := mkResponse {
  status : nat;
  body : Body
}.

(** [flask.jsonify(d)] for a dict [d]. *)
Definition jsonify {G} (d : pydict) : M G Response :=
  ret (mkResponse 200 (Json d)).

(** ** Jinja: the fragment the three templates are read in

    A template is a sequence of literal text and interpolations; Flask turns
    autoescaping on for [.html] templates, so [{{ x }}] is escaped and
    [{{ x|safe }}] is not. An undefined name renders as the empty string. *)

Inductive Value : Type :=
| VStr (s : string)
| VFloat (f : float).

Inductive Node : Type :=
| Text (s : string)
| Var (name : string)
| VarSafe (name : string).

Definition Template : Type := list Node.

Definition quot : ascii := ascii_of_nat 34.

(** [markupsafe.escape], one character at a time. *)
Definition escape_char (c : ascii) : string :=
  if Ascii.eqb c "&" then "&amp;"
  else if Ascii.eqb c "<" then "&lt;"
  else if Ascii.eqb c ">" then "&gt;"
  else if Ascii.eqb c "'" then "&#39;"
  else if Ascii.eqb c quot then "&#34;"
  else String c "".

Fixpoint escape (s : string) : string :=
  match s with
  | EmptyString => ""
  | String c s' => escape_char c ++ escape s'
  end.

(** Keyword arguments of a call, by name. *)
Fixpoint lookup {A} (kw : list (string * A)) (name : string) : option A :=
  match kw with
  | [] => None
  | (k, v) :: kw' => if String.eqb k name then Some v else lookup kw' name
  end.

(** A string [needle] occurs in [hay]. *)
Definition substring_of (needle hay : string) : Prop :=
  exists pre post : string, hay = (pre ++ needle ++ post)%string.

(** ** Flask: what the application is run in

    The templates folder of the repository (the contents of its files are
    left open), the files of the static folder beside the script, Python's
    [str] on a float, the page Flask writes for an exception, and the
    framework's decision to trap an HTTP exception ([TRAP_HTTP_EXCEPTIONS],
    [TRAP_BAD_REQUEST_ERRORS] and the debug flag of [app.run(debug = True)]
    feed it) instead of answering with its code. *)
Class Flask : Type := {
  templates : string -> option Template;
  static_folder : string -> option string;
  str_float : float -> string;
  error_page : exn -> string;
  trap_http_exception : exn -> bool
}.

Section FlaskCore.
Context {F : Flask}.

Definition to_str (v : Value) : string :=
  match v with
  | VStr s => s
  | VFloat f => str_float f
  end.

Definition render_node (ctx : list (string * Value)) (n : Node) : string :=
  match n with
  | Text s => s
  | Var x => match lookup ctx x with
             | Some v => escape (to_str v)
             | None => ""
             end
  | VarSafe x => match lookup ctx x with
                 | Some v => to_str v
                 | None => ""
                 end
  end.

Definition render (t : Template) (ctx : list (string * Value)) : string :=
  String.concat "" (map (render_node ctx) t).

(** [flask.render_template(name, **ctx)], returned from a view. *)
Definition render_template {G} (name : string) (ctx : list (string * Value))
  : M G Response :=
  match templates name with
  | Some t => ret (mkResponse 200 (Html (render t ctx)))
  | None => raise (TemplateNotFound name)
  end.

(** *** The URL map *)

(** The shapes of rule the two applications hold: a fixed path, a fixed
    prefix followed by one [<arg>] with the default (string) converter, and
    a fixed prefix followed by [<path:arg>], the rule [Flask(__name__)]
    registers for the static folder. *)
Inductive Rule : Type :=
| Static (p : string)
| StringArg (prefix arg : string)
| PathArg (prefix arg : string).

Fixpoint strip_prefix (pre s : string) : option string :=
  match pre, s with
  | EmptyString, _ => Some s
  | String a pre', String b s' =>
      if Ascii.eqb a b then strip_prefix pre' s' else None
  | String _ _, EmptyString => None
  end.

Fixpoint no_slash (s : string) : bool :=
  match s with
  | EmptyString => true
  | String c s' => negb (Ascii.eqb c "/") && no_slash s'
  end.

(** The string converter takes one path segment: at least one character,
    none of them a slash. *)
Definition is_segment (s : string) : bool :=
  negb (String.eqb s "") && no_slash s.

(** The path converter takes the rest of the path, slashes included: at
    least one character, the first of them not a slash. *)
Definition is_path (s : string) : bool :=
  match s with
  | EmptyString => false
  | String c _ => negb (Ascii.eqb c "/")
  end.

(** A path in which no two slashes stand side by side. The matching below
    does not merge slashes (werkzeug before 1.0); later versions answer a
    path with doubled slashes by a redirect to the merged path when that one
    fits a rule. *)
Fixpoint no_double_slash (s : string) : bool :=
  match s with
  | String a ((String b _) as s') =>
      negb (Ascii.eqb a "/" && Ascii.eqb b "/") && no_double_slash s'
  | _ => true
  end.

Definition match_rule (r : Rule) (p : string) : option (list (string * string)) :=
  match r with
  | Static s => if String.eqb s p then Some [] else None
  | StringArg pre arg =>
      match strip_prefix pre p with
      | Some seg => if is_segment seg then Some [(arg, seg)] else None
      | None => None
      end
  | PathArg pre arg =>
      match strip_prefix pre p with
      | Some rest => if is_path rest then Some [(arg, rest)] else None
      | None => None
      end
  end.

(** [@app.route(rule, methods = ms)]: werkzeug adds HEAD to a rule that takes
    GET, Flask adds OPTIONS. *)
Definition route_methods (ms : list Method) : list Method :=
  ms ++ (if existsb (Method_eqb GET) ms then [HEAD] else []) ++ [OPTIONS].

Section App.
Variables G E : Type.

Definition View : Type := list (string * string) -> Request -> M G Response.

Record App : Type := mkApp {
  url_map : list (Rule * list Method * E);
  view_functions : E -> View
}.

(** Matching a request: the first rule whose path and method both fit; 405
    when some rule fits the path but none the method; 404 otherwise. *)
Fixpoint url_match (rules : list (Rule * list Method * E)) (m : Method)
  (p : string) (path_seen : bool) : Result (E * list (string * string)) :=
  match rules with
  | [] => Raise (if path_seen then MethodNotAllowed else NotFound)
  | (r, ms, e) :: rest =>
      match match_rule r p with
      | Some kw =>
          if existsb (Method_eqb m) ms then Ok (e, kw)
          else url_match rest m p true
      | None => url_match rest m p path_seen
      end
  end.

Definition dispatch_request (app : App) (req : Request) : M G Response :=
  (m <- call (url_match (url_map app) (method req) (path req) false) ;;
   match method req with
   | OPTIONS => ret (mkResponse 200 Empty)
   | _ => view_functions app (fst m) (snd m) req
   end)%view.

(** An exception that leaves a view: an HTTP exception that is not trapped
    becomes the response of its own code; everything else is a 500. *)
Definition handle_user_exception (e : exn) : Response :=
  match http_code e with
  | Some c =>
      if trap_http_exception e then mkResponse 500 (Html (error_page e))
      else mkResponse c (Html (error_page e))
  | None => mkResponse 500 (Html (error_page e))
  end.

(** The body of the answer to a HEAD request is not sent. *)
Definition finalize (req : Request) (r : Response) : Response :=
  match method req with
  | HEAD => mkResponse (status r) Empty
  | _ => r
  end.

(** One request, from the socket to the response. *)
Definition wsgi_app (app : App) (req : Request) (g : G) : Response * G :=
  match dispatch_request app req g with
  | (Ok r, g') => (finalize req r, g')
  | (Raise e, g') => (finalize req (handle_user_exception e), g')
  end.

(** The serve loop over the requests of one process lifetime. *)
Fixpoint serve (app : App) (g : G) (reqs : list Request) : list Response * G :=
  match reqs with
  | [] => ([], g)
  | req :: rest =>
      let (r, g') := wsgi_app app req g in
      let (rs, g'') := serve app g' rest in
      (r :: rs, g'')
  end.

(** [Flask(__name__)] (line 2 of either script) registers the rule
    [/static/<path:filename>] with this view: the file of that name in the
    static folder, or NotFound. *)
Definition static_rule : Rule := PathArg "/static/" "filename".

Definition send_static_file : View := fun kw _ =>
  match lookup kw "filename" with
  | Some filename =>
      match static_folder filename with
      | Some content => ret (mkResponse 200 (File content))
      | None => raise NotFound
      end
  | None => raise (TypeError "send_static_file() missing 1 required positional argument")
  end.

(** A view that reads the globals and leaves them as they are. *)
Definition reads_only (v : View) : Prop :=
  forall kw req g, snd (v kw req g) = g.

End App.

(** The response to a GET whose view returns
    [render_template(name, **ctx)]. *)
Definition page (name : string) (ctx : list (string * Value)) : Response :=
  match templates name with
  | Some t => mkResponse 200 (Html (render t ctx))
  | None => handle_user_exception (TemplateNotFound name)
  end.

End FlaskCore.

(** ** pandas: the calls the two loaders make

    A DataFrame is opaque; the disk the table is read from is part of the
    instance. *)
Class Pandas : Type := {
  DataFrame : Type;
  (** [pd.read_csv(path, sep = sep, header = 0 if header else None)] *)
  read_csv : string -> ascii -> bool -> Result DataFrame;
  (** [df.columns = names] *)
  set_columns : DataFrame -> list string -> Result DataFrame;
  (** [df[name]], [df.name] *)
  column : DataFrame -> string -> Result Series;
  (** [df[[name, ...]]] *)
  columns : DataFrame -> list string -> Result DataFrame;
  (** [df.to_html()] *)
  to_html : DataFrame -> string;
  (** [s.value_counts()] *)
  value_counts : Series -> list (string * nat);
  (** [pd.get_dummies(df, drop_first = b)] *)
  get_dummies : DataFrame -> bool -> DataFrame;
  (** [pd.concat(dfs, axis = a)] *)
  concat : list DataFrame -> nat -> Result DataFrame
}.

(** ** scikit-learn: the estimators the two loaders fit *)

(** The constructor arguments the scripts pass. *)
Record TfidfVectorizer : Type := {
  stop_words : option string;
  max_features : option nat
}.

Record LogisticRegression : Type := {
  solver : string
}.

Class Sklearn (P : Pandas) : Type := {
  (** an entry of a feature matrix *)
  Num : Type;
  (** the stop-word list of a name ([stop_words = 'english']) *)
  stop_list : string -> list string;
  (** a fitted TfidfVectorizer: [fit], one row of [transform], [vocabulary_] *)
  FittedTfidf : Type;
  tfidf_fit : TfidfVectorizer -> Series -> Result FittedTfidf;
  tfidf_row : FittedTfidf -> string -> list Num;
  vocabulary_ : FittedTfidf -> list string;
  (** a fitted MultinomialNB: [fit], [n_features_in_], [classes_] and the
      label [predict] gives one row *)
  FittedNB : Type;
  nb_fit : list (list Num) -> Series -> Result FittedNB;
  n_features_in_ : FittedNB -> nat;
  classes_ : FittedNB -> list string;
  nb_predict_row : FittedNB -> list Num -> string;
  (** numpy's global random state when the script is imported *)
  RandomState : Type;
  train_test_split :
    RandomState -> DataFrame -> Series ->
    Result (DataFrame * DataFrame * Series * Series);
  (** a LogisticRegression after [fit] *)
  FittedLR : Type;
  lr_fit : LogisticRegression -> DataFrame -> Series -> Result FittedLR;
  cross_val_predict : FittedLR -> DataFrame -> Series -> nat -> Result Series
}.

Section SklearnCore.
Context {P : Pandas} {S : Sklearn P}.

Definition Matrix : Type := list (list Num).

(** [cvec.transform(docs)]: one row per document. *)
Definition transform (cvec : FittedTfidf) (docs : Series) : Matrix :=
  map (tfidf_row cvec) docs.

(** [cvec.fit_transform(docs)]: [fit], then [transform] of the same
    documents. *)
Definition fit_transform (cvec : TfidfVectorizer) (docs : Series)
  : Result (FittedTfidf * Matrix) :=
  (v <- tfidf_fit cvec docs ;;
   Ok (v, transform v docs))%result.

(** [clf.predict(X)]: a row of another width than the one [clf] was fitted
    on is a [ValueError]; otherwise one label per row. *)
Definition predict (clf : FittedNB) (X : Matrix) : Result Series :=
  if forallb (fun r => List.length r =? n_features_in_ clf) X
  then Ok (map (nb_predict_row clf) X)
  else Raise (ValueError "dimension mismatch").

(** *** Contracts of the library used by the proofs *)

(** Every row a fitted vectorizer produces has one entry per vocabulary
    term. *)
Definition tfidf_width_contract : Prop :=
  forall p docs v, tfidf_fit p docs = Ok v ->
  forall s, List.length (tfidf_row v s) = List.length (vocabulary_ v).

(** [max_features] bounds the vocabulary, and no word of the stop list
    enters it. *)
Definition tfidf_vocabulary_contract : Prop :=
  forall p docs v, tfidf_fit p docs = Ok v ->
  (forall k, max_features p = Some k -> List.length (vocabulary_ v) <= k) /\
  (forall l w, stop_words p = Some l -> In w (stop_list l) ->
               ~ In w (vocabulary_ v)).

(** [MultinomialNB.fit] wants at least one sample, remembers the width of
    the rows and the distinct labels, and [predict] answers with one of
    [classes_]. *)
Definition nb_fit_contract : Prop :=
  forall X y c, nb_fit X y = Ok c ->
  X <> [] /\
  Forall (fun r => List.length r = n_features_in_ c) X /\
  (forall l, In l (classes_ c) <-> In l y) /\
  (forall r, In (nb_predict_row c r) (classes_ c)).

(** [cross_val_predict] gives one prediction per sample, and needs at least
    one sample per fold. *)
Definition cross_val_predict_contract : Prop :=
  forall est X y cv preds, cross_val_predict est X y cv = Ok preds ->
  List.length preds = List.length y /\ cv <= List.length y.

End SklearnCore.

(** [sklearn.metrics.accuracy_score(y_true, y_pred)]: the mean of
    [y_true == y_pred]; numpy's mean of an empty array is not a number. *)
Definition mean (bs : list bool) : float :=
  match bs with
  | [] => NaN
  | _ => Real (Z.of_nat (List.length (filter (fun b => b) bs))
               # Pos.of_nat (List.length bs))
  end.

Definition accuracy_score (y_true y_pred : Series) : Result float :=
  if List.length y_true =? List.length y_pred
  then Ok (mean (map (fun p => String.eqb (fst p) (snd p))
                     (combine y_true y_pred)))
  else Raise (ValueError "inconsistent numbers of samples").

Definition tab : ascii := ascii_of_nat 9.

(** ** hello.py: the spam service *)
Module Hello.
Section Hello.
Context {P : Pandas} {S : Sklearn P} {F : Flask}.

(** The module globals once the import has run. *)
Record Globals : Type := mkGlobals {
  df : DataFrame;
  y : Series;
  X : Matrix;
  df_html : string;
  cvec : FittedTfidf;
  clf : FittedNB
}.

(** Lines 9 to 19: the loader. *)
Definition startup : Result Globals :=
  (df <- read_csv "data/SMSSpamCollection.txt" tab false ;;
   df <- set_columns df ["target"; "msg"] ;;
   y <- column df "target" ;;
   X <- column df "msg" ;;
   let df_html := to_html df in
   let cvec := {| stop_words := Some "english"; max_features := Some 300 |} in
   vX <- fit_transform cvec X ;;
   let cvec := fst vX in
   let X := snd vX in
   clf <- nb_fit X y ;;
   Ok (mkGlobals df y X df_html cvec clf))%result.

Definition table : View Globals := fun _ _ =>
  (t <- global df_html ;;
   render_template "table.html" [("table", VStr t)])%view.

Definition is_spam : View Globals := fun _ request =>
  (m <- call (getitem (args request) "msg") ;;
   let msg := [m] in
   v <- global cvec ;;
   let X_new := transform v msg in
   c <- global clf ;;
   score <- call (predict c X_new) ;;
   s0 <- call (getitem_index score 0) ;;
   let results := [("prediction", s0)] in
   jsonify results)%view.

Definition hello : View Globals := fun _ _ =>
  ret (mkResponse 200 (Html "
    <body>
    <h2> Hello World! </h2>
    </body>
    ")).

Definition greet : View Globals := fun kw _ =>
  match lookup kw "name" with
  | Some name => render_template "index.html" [("name", VStr name)]
  | None => raise (TypeError "greet() missing 1 required positional argument")
  end.

(** Section 4.3 of the specification, as a function of the fitted pair and
    the text: one document in, its label out under the key [prediction];
    [is_spam] is compared with it below. *)
Definition spec_prediction (v : FittedTfidf) (c : FittedNB) (msg : string)
  : Response :=
  match (score <- predict c (transform v [msg]) ;;
         getitem_index score 0)%result with
  | Ok label => mkResponse 200 (Json [("prediction", label)])
  | Raise e => handle_user_exception e
  end.

Inductive Endpoint : Type :=
| ep_static | ep_table | ep_is_spam | ep_hello | ep_greet.

(** [Flask(__name__)] and the four [@app.route] lines. *)
Definition app : App Globals Endpoint := {|
  url_map :=
    [ (static_rule, route_methods [GET], ep_static);
      (Static "/table", route_methods [GET], ep_table);
      (Static "/is_spam", route_methods [GET], ep_is_spam);
      (Static "/", route_methods [GET], ep_hello);
      (StringArg "/greet/" "name", route_methods [GET], ep_greet) ];
  view_functions := fun e =>
    match e with
    | ep_static => send_static_file (G := Globals)
    | ep_table => table
    | ep_is_spam => is_spam
    | ep_hello => hello
    | ep_greet => greet
    end
|}.

End Hello.
End Hello.

(** ** app.py: the bank service *)
Module BankApp.
Section BankApp.
Context {P : Pandas} {S : Sklearn P} {F : Flask}.

Record Globals : Type := mkGlobals {
  bank : DataFrame;
  jobs : list (string * nat);
  X_num : DataFrame;
  X_dum : DataFrame;
  X : DataFrame;
  y : Series;
  clf : FittedLR;
  X_train : DataFrame;
  X_test : DataFrame;
  y_train : Series;
  y_test : Series;
  preds : Series;
  score : float
}.

(** Lines 12 to 28: the loader. [rs] is the random state [train_test_split]
    draws from (no seed is passed). *)
Definition startup (rs : RandomState) : Result Globals :=
  (bank <- read_csv "../data/bank.csv" "," true ;;
   job <- column bank "job" ;;
   let jobs := value_counts job in
   X_num <- columns bank ["age"; "duration"] ;;
   cat <- columns bank ["loan"; "marital"; "job"] ;;
   let X_dum := get_dummies cat true in
   X <- concat [X_num; X_dum] 1 ;;
   y <- column bank "y" ;;
   let clf := {| solver := "newton-cg" |} in
   parts <- train_test_split rs X y ;;
   let '(X_train, X_test, y_train, y_test) := parts in
   clf <- lr_fit clf X_train y_train ;;
   preds <- cross_val_predict clf X_test y_test 5 ;;
   score <- accuracy_score y_test preds ;;
   Ok (mkGlobals bank jobs X_num X_dum X y clf
                 X_train X_test y_train y_test preds score))%result.

Definition hello : View Globals := fun _ _ =>
  (a <- global score ;;
   render_template "report.html" [("a", VFloat a)])%view.

Inductive Endpoint : Type := ep_static | ep_hello.

(** [Flask(__name__)] and the one [@app.route] line. *)
Definition app : App Globals Endpoint := {|
  url_map :=
    [ (static_rule, route_methods [GET], ep_static);
      (Static "/", route_methods [GET], ep_hello) ];
  view_functions := fun e =>
    match e with
    | ep_static => send_static_file (G := Globals)
    | ep_hello => hello
    end
|}.

End BankApp.
End BankApp.

(** ** A small executable instance of the three interfaces

    A disk with two tiny tables, a whitespace tokenizer with term counts for
    the vectorizer, a classifier that answers with one of its classes, a
    split that keeps the last quarter for testing, and three one-line
    templates. The witnesses below run the two scripts on it. *)
Module Toy.

Definition Frame : Type := list (string * Series).

Definition sms : Frame :=
  [ ("0", ["ham"; "spam"; "ham"; "spam"]);
    ("1", ["see you at lunch"; "win free cash now";
           "lunch was good"; "free cash call now"]) ].

Definition bank_csv : Frame :=
  [ ("age", repeat "30" 20);
    ("duration", repeat "100" 20);
    ("loan", repeat "no" 20);
    ("marital", repeat "single" 20);
    ("job", repeat "admin." 20);
    ("y", repeat "no" 16 ++ ["yes"; "no"; "no"; "no"]) ].

Fixpoint traverse {A B} (f : A -> Result B) (l : list A) : Result (list B) :=
  match l with
  | [] => Ok []
  | a :: l' => (b <- f a ;; bs <- traverse f l' ;; Ok (b :: bs))%result
  end.

Definition frame_column (d : Frame) (name : string) : Result Series :=
  match lookup d name with
  | Some s => Ok s
  | None => Raise (KeyError name)
  end.

Definition frame_html (d : Frame) : string :=
  String.concat ""
    (map (fun c => "<th>" ++ fst c ++ "</th>"
                   ++ String.concat "" (map (fun v => "<td>" ++ v ++ "</td>") (snd c)))%string
         d).

Definition pandas : Pandas := {|
  DataFrame := Frame;
  read_csv := fun path sep header =>
    if String.eqb path "data/SMSSpamCollection.txt" then Ok sms
    else if String.eqb path "../data/bank.csv" then Ok bank_csv
    else Raise (FileNotFoundError path);
  set_columns := fun d names =>
    if List.length d =? List.length names
    then Ok (combine names (map snd d))
    else Raise (ValueError "Length mismatch");
  column := frame_column;
  columns := fun d names =>
    traverse (fun n => (s <- frame_column d n ;; Ok (n, s))%result) names;
  to_html := frame_html;
  value_counts := fun s =>
    map (fun l => (l, count_occ string_dec s l)) (nodup string_dec s);
  get_dummies := fun d _ => d;
  concat := fun ds _ => Ok (List.concat ds)
|}.

(** Splitting a document at spaces. *)
Fixpoint split_words (s cur : string) : list string :=
  match s with
  | EmptyString => if String.eqb cur "" then [] else [cur]
  | String c s' =>
      if Ascii.eqb c " "
      then (if String.eqb cur "" then split_words s' ""
            else cur :: split_words s' "")
      else split_words s' (cur ++ String c "")
  end.

Definition words (s : string) : list string := split_words s "".

Definition member (w : string) (l : list string) : bool :=
  existsb (String.eqb w) l.

Definition stops (l : string) : list string :=
  if String.eqb l "english" then ["you"; "at"; "was"; "now"] else [].

Definition vocabulary_of (p : TfidfVectorizer) (docs : Series) : list string :=
  let kept :=
    filter (fun w => match stop_words p with
                     | Some l => negb (member w (stops l))
                     | None => true
                     end)
           (flat_map words docs) in
  match max_features p with
  | Some k => firstn k (nodup string_dec kept)
  | None => nodup string_dec kept
  end.

Record NB : Type := mkNB { nb_width : nat; nb_classes : list string }.

Definition nb_fit_toy (X : list (list nat)) (y : Series) : Result NB :=
  match X with
  | [] => Raise (ValueError "Found array with 0 sample(s)")
  | r0 :: _ =>
      if (List.length X =? List.length y)
         && forallb (fun r => List.length r =? List.length r0) X
      then Ok (mkNB (List.length r0) (nodup string_dec y))
      else Raise (ValueError "inconsistent input")
  end.

(** The first class for an all-zero row, the last one otherwise. *)
Definition nb_row (c : NB) (r : list nat) : string :=
  if list_sum r =? 0 then hd "" (nb_classes c) else last (nb_classes c) "".

Definition split (rs : nat) (X : @DataFrame pandas) (y : Series)
  : Result (@DataFrame pandas * @DataFrame pandas * Series * Series) :=
  let n := List.length y in
  let n_test := (n + 3) / 4 in
  let n_train := n - n_test in
  if n_train =? 0
  then Raise (ValueError "the resulting train set will be empty")
  else Ok (map (fun c => (fst c, firstn n_train (snd c))) X,
           map (fun c => (fst c, skipn n_train (snd c))) X,
           firstn n_train y, skipn n_train y).

Definition sklearn : Sklearn pandas := {|
  Num := nat;
  stop_list := stops;
  FittedTfidf := list string;
  tfidf_fit := fun p docs =>
    match vocabulary_of p docs with
    | [] => Raise (ValueError "empty vocabulary")
    | v => Ok v
    end;
  tfidf_row := fun v s => map (count_occ string_dec (words s)) v;
  vocabulary_ := fun v => v;
  FittedNB := NB;
  nb_fit := nb_fit_toy;
  n_features_in_ := nb_width;
  classes_ := nb_classes;
  nb_predict_row := nb_row;
  RandomState := nat;
  train_test_split := split;
  FittedLR := LogisticRegression;
  lr_fit := fun p _ y =>
    match y with
    | [] => Raise (ValueError "Found array with 0 sample(s)")
    | _ => Ok p
    end;
  cross_val_predict := fun _ _ y cv =>
    if cv <=? List.length y
    then Ok (map (fun _ => hd "" y) y)
    else Raise (ValueError "Cannot have number of splits greater than the number of samples")
|}.

Definition flask : Flask := {|
  templates := fun name =>
    if String.eqb name "table.html" then Some [Text "<table>"; VarSafe "table"; Text "</table>"]
    else if String.eqb name "index.html" then Some [Text "<h1>Hello, "; Var "name"; Text "!</h1>"]
    else if String.eqb name "report.html" then Some [Text "<p>Accuracy: "; Var "a"; Text "</p>"]
    else None;
  static_folder := fun name =>
    if String.eqb name "css/style.css" then Some "h1 { color: navy }" else None;
  str_float := fun f =>
    match f with
    | NaN => "nan"
    | Real q =>
        (NilZero.string_of_int (Z.to_int (Qnum q)) ++ "/"
         ++ NilZero.string_of_uint (Pos.to_uint (Qden q)))%string
    end;
  error_page := fun e =>
    match http_code e with
    | Some 400 => "Bad Request"
    | Some 404 => "Not Found"
    | Some 405 => "Method Not Allowed"
    | _ => "Internal Server Error"
    end;
  trap_http_exception := fun _ => false
|}.

(** The same application as [python hello.py] starts it on Flask 1.0 or
    later: [app.run(debug = True)] (line 48) with [TRAP_BAD_REQUEST_ERRORS]
    unset, where a key error of the query dict is trapped and ends as the
    debugger's 500 page. *)
Definition flask_debug : Flask := {|
  templates := @templates flask;
  static_folder := @static_folder flask;
  str_float := @str_float flask;
  error_page := @error_page flask;
  trap_http_exception := fun e =>
    match e with
    | BadRequestKeyError _ => true
    | _ => false
    end
|}.

(** The two scripts, imported on this instance. *)
Definition spam_globals : @Hello.Globals pandas sklearn :=
  Eval vm_compute in
  match @Hello.startup pandas sklearn with
  | Ok g => g
  | Raise _ => @Hello.mkGlobals pandas sklearn [] [] [] "" [] (mkNB 0 [])
  end.

Definition bank_globals : @BankApp.Globals pandas sklearn :=
  Eval vm_compute in
  match @BankApp.startup pandas sklearn 0 with
  | Ok g => g
  | Raise _ =>
      @BankApp.mkGlobals pandas sklearn [] [] [] [] [] [] {| solver := "" |}
                         [] [] [] [] [] NaN
  end.

Definition spam_app : App (@Hello.Globals pandas sklearn) Hello.Endpoint :=
  @Hello.app pandas sklearn flask.

Definition bank_app : App (@BankApp.Globals pandas sklearn) BankApp.Endpoint :=
  @BankApp.app pandas sklearn flask.

(** The requests of one lifetime of the spam service. *)
Definition session : list Request :=
  [ mkRequest GET "/table" [];
    mkRequest GET "/is_spam" [("msg", "free cash")];
    mkRequest GET "/greet/Jacob" [];
    mkRequest GET "/is_spam" [("lang", "en"); ("msg", "free cash"); ("msg", "lunch")];
    mkRequest GET "/is_spam" [("lang", "en")];
    mkRequest POST "/table" [];
    mkRequest GET "/is_spam" [("msg", "")];
    mkRequest GET "/table" [] ].

End Toy.

(** * Properties *)

(** ** The serve loop *)

Ltac run_view :=
  unfold bind, call, global, ret, raise, jsonify, render_template in *.

Section ServeFacts.
Context {F : Flask}.
Variables G E : Type.
Variable app : App G E.
Hypothesis views_read_only : forall e, reads_only (view_functions app e).

Lemma dispatch_request_frame (req : Request) (g : G) :
  snd (dispatch_request app req g) = g.
Proof.
  unfold dispatch_request; run_view.
  destruct (url_match (url_map app) (method req) (path req) false) as [m|e];
    [|reflexivity].
  destruct (method req); try apply views_read_only; reflexivity.
Qed.

Lemma wsgi_app_frame (req : Request) (g : G) :
  snd (wsgi_app app req g) = g.
Proof.
  unfold wsgi_app.
  pose proof (dispatch_request_frame req g) as Hd.
  destruct (dispatch_request app req g) as [[r|e] g']; simpl in *; assumption.
Qed.

(** With views that only read, the loop answers every request from the
    globals it started with. *)
Lemma serve_map (g : G) (reqs : list Request) :
  serve app g reqs = (map (fun r => fst (wsgi_app app r g)) reqs, g).
Proof.
  induction reqs as [|req rest IH]; simpl; [reflexivity|].
  pose proof (wsgi_app_frame req g) as Hw.
  destruct (wsgi_app app req g) as [r g']; simpl in Hw; subst g'.
  rewrite IH; reflexivity.
Qed.

Lemma serve_nth (g : G) (reqs : list Request) (i : nat) (req : Request) :
  nth_error reqs i = Some req ->
  nth_error (fst (serve app g reqs)) i = Some (fst (wsgi_app app req g)).
Proof.
  intros Hi. rewrite serve_map; simpl.
  rewrite nth_error_map, Hi; reflexivity.
Qed.

End ServeFacts.

Lemma getitem_absent (d : MultiDict) (key : string) :
  (forall v, ~ In (key, v) d) -> getitem d key = Raise (BadRequestKeyError key).
Proof.
  induction d as [|[k v] d IH]; simpl; intros Hno; [reflexivity|].
  destruct (String.eqb_spec k key) as [->|Hne].
  - exfalso; apply (Hno v); left; reflexivity.
  - apply IH; intros v' Hin; apply (Hno v'); right; assumption.
Qed.

Lemma getitem_present (d : MultiDict) (key v : string) :
  In (key, v) d -> exists v', getitem d key = Ok v'.
Proof.
  induction d as [|[k w] d IH]; simpl; intros Hin; [contradiction|].
  destruct (String.eqb_spec k key) as [->|Hne]; [eauto|].
  destruct Hin as [Heq|Hin]; [congruence|auto].
Qed.

(** ** hello.py *)

Section HelloFacts.
Context {P : Pandas} {S : Sklearn P} {F : Flask}.
Import Hello.

Lemma send_static_file_reads_only {G : Type} :
  reads_only (send_static_file (G := G)).
Proof.
  intros kw req g. unfold send_static_file; run_view.
  destruct (lookup kw "filename") as [f|]; [|reflexivity].
  destruct (static_folder f); reflexivity.
Qed.

Lemma hello_views_read_only (e : Endpoint) :
  reads_only (view_functions app e).
Proof.
  intros kw req g; destruct e; simpl.
  - apply send_static_file_reads_only.
  - unfold table; run_view; simpl.
    destruct (templates "table.html"); reflexivity.
  - unfold is_spam; run_view.
    destruct (getitem (args req) "msg"); simpl; [|reflexivity].
    destruct (predict (clf g) _); simpl; [|reflexivity].
    destruct (getitem_index _ 0); reflexivity.
  - reflexivity.
  - unfold greet; run_view.
    destruct (lookup kw "name"); [|reflexivity].
    destruct (templates "index.html"); reflexivity.
Qed.

(** What the loader leaves in the globals. *)
Lemma startup_inv (g : Globals) :
  startup = Ok g ->
  exists raw corpus,
    read_csv "data/SMSSpamCollection.txt" tab false = Ok raw /\
    set_columns raw ["target"; "msg"] = Ok (df g) /\
    column (df g) "target" = Ok (y g) /\
    column (df g) "msg" = Ok corpus /\
    df_html g = to_html (df g) /\
    tfidf_fit {| stop_words := Some "english"; max_features := Some 300 |}
              corpus = Ok (cvec g) /\
    X g = transform (cvec g) corpus /\
    nb_fit (X g) (y g) = Ok (clf g).
Proof.
  unfold startup, fit_transform, rbind.
  destruct (read_csv _ _ _) as [raw|] eqn:Hraw; [|discriminate].
  destruct (set_columns raw _) as [d|] eqn:Hd; [|discriminate].
  destruct (column d "target") as [t|] eqn:Ht; [|discriminate].
  destruct (column d "msg") as [c|] eqn:Hc; [|discriminate].
  destruct (tfidf_fit _ c) as [v|] eqn:Hv; [|discriminate].
  simpl. destruct (nb_fit _ t) as [n|] eqn:Hn; [|discriminate].
  intros [= <-]; simpl. exists raw, c. repeat split; assumption.
Qed.

(** [is_spam] does what section 4.3 says, on any globals. *)
Lemma is_spam_run (g : Globals) (req : Request) (msg : string) :
  method req = GET -> path req = "/is_spam" ->
  getitem (args req) "msg" = Ok msg ->
  wsgi_app app req g = (spec_prediction (cvec g) (clf g) msg, g).
Proof.
  destruct req as [m p a]; simpl; intros -> -> Hmsg.
  unfold wsgi_app, dispatch_request, spec_prediction, rbind; run_view; simpl.
  unfold is_spam; run_view; simpl. rewrite Hmsg.
  destruct (predict (clf g) _) as [score|e]; [|reflexivity].
  destruct (getitem_index score 0); reflexivity.
Qed.

(** The fitted pair fits together: a row of the transformer has the width
    the classifier was fitted on. *)
Lemma paired_width (g : Globals) :
  tfidf_width_contract -> nb_fit_contract -> startup = Ok g ->
  forall s, List.length (tfidf_row (cvec g) s) = n_features_in_ (clf g).
Proof.
  intros Hw Hnb Hs s.
  destruct (startup_inv Hs) as (raw & corpus & _ & _ & _ & _ & _ & Hv & HX & Hn).
  destruct (Hnb _ _ _ Hn) as (Hne & Hrows & _).
  rewrite HX in Hne, Hrows.
  destruct corpus as [|d ds]; [exfalso; apply Hne; reflexivity|].
  simpl in Hrows. inversion Hrows as [|r rs Hd _]; subst.
  rewrite <- Hd, !(Hw _ _ _ Hv). reflexivity.
Qed.

(** One document in, one label out: the label of its row. *)
Lemma paired_prediction (g : Globals) :
  tfidf_width_contract -> nb_fit_contract -> startup = Ok g ->
  forall msg,
    predict (clf g) (transform (cvec g) [msg])
    = Ok [nb_predict_row (clf g) (tfidf_row (cvec g) msg)].
Proof.
  intros Hw Hnb Hs msg. unfold predict, transform; simpl.
  rewrite (paired_width Hw Hnb Hs), Nat.eqb_refl. reflexivity.
Qed.

Lemma table_run (g : Globals) (req : Request) :
  method req = GET -> path req = "/table" ->
  wsgi_app app req g = (page "table.html" [("table", VStr (df_html g))], g).
Proof.
  destruct req as [m p a]; simpl; intros -> ->.
  unfold wsgi_app, dispatch_request, page; run_view; simpl.
  unfold table; run_view; simpl.
  destruct (templates "table.html"); reflexivity.
Qed.

Lemma greet_run (g : Globals) (req : Request) (name : string) :
  method req = GET -> path req = ("/greet/" ++ name)%string ->
  wsgi_app app req g
  = (if is_segment name then page "index.html" [("name", VStr name)]
     else handle_user_exception NotFound, g).
Proof.
  destruct req as [m p a]; simpl; intros -> ->.
  unfold wsgi_app, dispatch_request, page; run_view; simpl.
  destruct (is_segment name); simpl; [|reflexivity].
  unfold greet; run_view; simpl.
  destruct (templates "index.html"); reflexivity.
Qed.

End HelloFacts.

(** *** Strings in a rendered page *)

Lemma append_nil_r (s : string) : (s ++ "")%string = s.
Proof. induction s as [|c s IH]; simpl; [|rewrite IH]; reflexivity. Qed.

Lemma append_assoc (a b c : string) :
  ((a ++ b) ++ c)%string = (a ++ (b ++ c))%string.
Proof. induction a as [|x a IH]; simpl; [|rewrite IH]; reflexivity. Qed.

Lemma concat_cons (x : string) (xs : list string) :
  String.concat "" (x :: xs) = (x ++ String.concat "" xs)%string.
Proof. destruct xs; simpl; [rewrite append_nil_r|]; reflexivity. Qed.

Lemma substring_of_concat (x : string) (xs : list string) :
  In x xs -> substring_of x (String.concat "" xs).
Proof.
  induction xs as [|a xs IH]; intros Hin; [contradiction|].
  rewrite concat_cons. destruct Hin as [->|Hin].
  - exists "", (String.concat "" xs). reflexivity.
  - destruct (IH Hin) as (pre & post & ->).
    exists (a ++ pre)%string, post. rewrite append_assoc. reflexivity.
Qed.

(** A template shows what it interpolates. *)
Lemma render_shows {F : Flask} (t : Template) (ctx : list (string * Value))
  (n : Node) :
  In n t -> substring_of (render_node ctx n) (render t ctx).
Proof.
  intros Hin. unfold render. apply substring_of_concat.
  apply in_map; assumption.
Qed.

(** ** The claims about hello.py *)

Section HelloClaims.
Context {P : Pandas} {S : Sklearn P} {F : Flask}.
Import Hello.

(** C1. For every GET /is_spam that carries [msg], the view wraps the text
    into a one-element sequence, the fitted transformer turns it into one
    feature row, the fitted classifier gives exactly one label, and the
    response is the JSON object whose single key [prediction] holds that
    label. *)
Theorem is_spam_contract (g : Globals) (req : Request) (msg : string) :
  tfidf_width_contract -> nb_fit_contract -> startup = Ok g ->
  method req = GET -> path req = "/is_spam" ->
  getitem (args req) "msg" = Ok msg ->
  exists x label,
    transform (cvec g) [msg] = [x] /\
    predict (clf g) [x] = Ok [label] /\
    wsgi_app app req g = (mkResponse 200 (Json [("prediction", label)]), g).
Proof.
  intros Hw Hnb Hs Hm Hp Hmsg.
  exists (tfidf_row (cvec g) msg), (nb_predict_row (clf g) (tfidf_row (cvec g) msg)).
  pose proof (paired_prediction Hw Hnb Hs msg) as Hpred.
  split; [reflexivity|]. split; [exact Hpred|].
  rewrite (is_spam_run g req Hm Hp Hmsg). unfold spec_prediction.
  rewrite Hpred. reflexivity.
Qed.

(** C2. The HTML of the loaded table is computed by the loader and kept in
    [df_html]; within one process lifetime every GET /table is answered
    with one and the same content, the page rendered from that string. *)
Theorem table_cached (g : Globals) :
  startup = Ok g ->
  df_html g = to_html (df g) /\
  forall reqs : list Request,
    snd (serve app g reqs) = g /\
    forall i req,
      nth_error reqs i = Some req ->
      method req = GET -> path req = "/table" ->
      nth_error (fst (serve app g reqs)) i
      = Some (page "table.html" [("table", VStr (to_html (df g)))]).
Proof.
  intros Hs.
  destruct (startup_inv Hs) as (raw & corpus & _ & _ & _ & _ & Hhtml & _).
  split; [exact Hhtml|]. intros reqs. split.
  - rewrite (serve_map app hello_views_read_only). reflexivity.
  - intros i req Hi Hm Hp.
    rewrite (serve_nth app hello_views_read_only g reqs i Hi).
    rewrite (table_run g req Hm Hp), Hhtml. reflexivity.
Qed.

(** With the key error trapped (a setting of the framework, which the debug
    flag can switch on), the same request is answered 500 instead: an error
    response all the same, and the globals are as before. *)
Lemma is_spam_missing_msg_trapped (g : Globals) (req : Request) :
  method req = GET -> path req = "/is_spam" ->
  (forall v, ~ In ("msg", v) (args req)) ->
  trap_http_exception (BadRequestKeyError "msg") = true ->
  wsgi_app app req g
  = (mkResponse 500 (Html (error_page (BadRequestKeyError "msg"))), g).
Proof.
  intros Hm Hp Hno Htrap.
  pose proof (getitem_absent (args req) "msg" Hno) as Hget.
  destruct req as [m p a]; simpl in *; subst.
  unfold wsgi_app, dispatch_request; run_view; simpl.
  unfold is_spam; run_view; simpl. rewrite Hget; simpl.
  unfold handle_user_exception, finalize; simpl. rewrite Htrap. reflexivity.
Qed.

(** C3, as amended. A GET /is_spam without [msg] raises the key error of
    the query dict, which no view catches; the framework answers with an
    error response, never a 2xx: 400 when it does not trap the key error,
    500 when it does (the debug mode of [app.run(debug = True)] on Flask 1.0
    or later); the globals are as before and the loop goes on to the next
    request. *)
Theorem is_spam_missing_msg (g : Globals) (req : Request) (rest : list Request) :
  method req = GET -> path req = "/is_spam" ->
  (forall v, ~ In ("msg", v) (args req)) ->
  fst (is_spam [] req g) = Raise (BadRequestKeyError "msg") /\
  serve app g (req :: rest)
  = (mkResponse
       (if trap_http_exception (BadRequestKeyError "msg") then 500 else 400)
       (Html (error_page (BadRequestKeyError "msg")))
       :: fst (serve app g rest), g) /\
  ~ (200 <= status (fst (wsgi_app app req g)) < 300) /\
  snd (serve app g rest) = g.
Proof.
  intros Hm Hp Hno.
  pose proof (getitem_absent (args req) "msg" Hno) as Hget.
  assert (Hw : wsgi_app app req g
               = (mkResponse
                    (if trap_http_exception (BadRequestKeyError "msg")
                     then 500 else 400)
                    (Html (error_page (BadRequestKeyError "msg"))), g)).
  { destruct req as [m p a]; simpl in *; subst.
    unfold wsgi_app, dispatch_request; run_view; simpl.
    unfold is_spam; run_view; simpl. rewrite Hget; simpl.
    unfold handle_user_exception, finalize; simpl.
    destruct (trap_http_exception (BadRequestKeyError "msg")); reflexivity. }
  split; [unfold is_spam; run_view; rewrite Hget; reflexivity|].
  split; [|split].
  - rewrite !(serve_map app hello_views_read_only); simpl.
    rewrite Hw. reflexivity.
  - rewrite Hw; simpl.
    destruct (trap_http_exception (BadRequestKeyError "msg")); simpl; lia.
  - rewrite (serve_map app hello_views_read_only). reflexivity.
Qed.

(** C4. The answer of /is_spam is a function of the message text and of the
    fitted transformer and classifier: two calls with the same text, in the
    same or in two lifetimes over the same fitted pair, get the same
    response. *)
Theorem is_spam_deterministic (g g' : Globals) (reqs reqs' : list Request)
  (i j : nat) (ri rj : Request) :
  cvec g = cvec g' -> clf g = clf g' ->
  nth_error reqs i = Some ri -> nth_error reqs' j = Some rj ->
  method ri = GET -> path ri = "/is_spam" ->
  method rj = GET -> path rj = "/is_spam" ->
  getitem (args ri) "msg" = getitem (args rj) "msg" ->
  exists resp,
    nth_error (fst (serve app g reqs)) i = Some resp /\
    nth_error (fst (serve app g' reqs')) j = Some resp.
Proof.
  intros Hv Hc Hi Hj Hmi Hpi Hmj Hpj Hmsg.
  exists (fst (wsgi_app app ri g)).
  rewrite (serve_nth app hello_views_read_only g reqs i Hi).
  rewrite (serve_nth app hello_views_read_only g' reqs' j Hj).
  split; [reflexivity|]. f_equal.
  destruct (getitem (args ri) "msg") as [msg|e] eqn:Hget.
  - rewrite (is_spam_run g' rj Hmj Hpj (eq_sym Hmsg)).
    rewrite (is_spam_run g ri Hmi Hpi Hget). simpl. rewrite Hv, Hc. reflexivity.
  - destruct ri as [m p a], rj as [m' p' a']; simpl in *; subst.
    unfold wsgi_app, dispatch_request; run_view; simpl.
    unfold is_spam; run_view; simpl. rewrite Hget, <- Hmsg. reflexivity.
Qed.

(** C7. The loader fits one transformer, on the message column, configured
    with the English stop list and at most 300 features, so its vocabulary
    has at most 300 terms and none from the stop list; the classifier is
    fitted on what that transformer made of the corpus; through the whole
    lifetime the globals keep that transformer, and every /is_spam request
    is answered through it. *)
Theorem one_fitted_transformer (g : Globals) :
  tfidf_vocabulary_contract -> startup = Ok g ->
  (exists corpus,
     column (df g) "msg" = Ok corpus /\
     tfidf_fit {| stop_words := Some "english"; max_features := Some 300 |}
               corpus = Ok (cvec g) /\
     nb_fit (transform (cvec g) corpus) (y g) = Ok (clf g)) /\
  List.length (vocabulary_ (cvec g)) <= 300 /\
  (forall w, In w (stop_list "english") -> ~ In w (vocabulary_ (cvec g))) /\
  forall reqs : list Request,
    cvec (snd (serve app g reqs)) = cvec g /\
    forall i req msg,
      nth_error reqs i = Some req ->
      method req = GET -> path req = "/is_spam" ->
      getitem (args req) "msg" = Ok msg ->
      nth_error (fst (serve app g reqs)) i
      = Some (spec_prediction (cvec g) (clf g) msg).
Proof.
  intros Hvoc Hs.
  destruct (startup_inv Hs) as (raw & corpus & _ & _ & _ & Hc & _ & Hv & HX & Hn).
  destruct (Hvoc _ _ _ Hv) as [Hmax Hstop].
  split; [exists corpus; rewrite <- HX; auto|].
  split; [apply Hmax; reflexivity|].
  split; [intros w Hw; apply (Hstop "english"); [reflexivity|assumption]|].
  intros reqs. split.
  - rewrite (serve_map app hello_views_read_only). reflexivity.
  - intros i req msg Hi Hm Hp Hmsg.
    rewrite (serve_nth app hello_views_read_only g reqs i Hi).
    rewrite (is_spam_run g req Hm Hp Hmsg). reflexivity.
Qed.

(** C8. /greet/<name> takes exactly one path segment, as it stands, and
    hands it as it is to the rendering of [index.html]; nothing of the model
    enters the answer. When the template interpolates [name], the body of
    /greet/Jacob contains [Jacob]. *)
Theorem greet_contract (g : Globals) (req : Request) (name : string) :
  method req = GET -> path req = ("/greet/" ++ name)%string ->
  wsgi_app app req g
  = (if is_segment name then page "index.html" [("name", VStr name)]
     else handle_user_exception NotFound, g) /\
  (forall g', fst (wsgi_app app req g') = fst (wsgi_app app req g)) /\
  (forall t,
     templates "index.html" = Some t ->
     In (Var "name") t \/ In (VarSafe "name") t ->
     name = "Jacob" ->
     exists b, fst (wsgi_app app req g) = mkResponse 200 (Html b) /\
               substring_of "Jacob" b).
Proof.
  intros Hm Hp. pose proof (greet_run g req Hm Hp) as Hrun.
  split; [exact Hrun|]. split.
  - intros g'. rewrite (greet_run g' req Hm Hp), Hrun. reflexivity.
  - intros t Ht Hin ->. rewrite Hrun; simpl. unfold page; rewrite Ht.
    eexists; split; [reflexivity|].
    destruct Hin as [Hin|Hin];
      apply (render_shows t [("name", VStr "Jacob")]) in Hin; exact Hin.
Qed.

(** C9. Whatever the text, the label under [prediction] is one of the
    distinct values of the target column the classifier was fitted on. *)
Theorem prediction_in_training_labels (g : Globals) (req : Request)
  (msg : string) :
  tfidf_width_contract -> nb_fit_contract -> startup = Ok g ->
  method req = GET -> path req = "/is_spam" ->
  getitem (args req) "msg" = Ok msg ->
  column (df g) "target" = Ok (y g) /\
  exists label,
    fst (wsgi_app app req g) = mkResponse 200 (Json [("prediction", label)]) /\
    In label (nodup string_dec (y g)).
Proof.
  intros Hw Hnb Hs Hm Hp Hmsg.
  destruct (startup_inv Hs) as (raw & corpus & _ & _ & Hy & _ & _ & _ & _ & Hn).
  split; [exact Hy|].
  exists (nb_predict_row (clf g) (tfidf_row (cvec g) msg)). split.
  - rewrite (is_spam_run g req Hm Hp Hmsg); simpl. unfold spec_prediction.
    rewrite (paired_prediction Hw Hnb Hs msg). reflexivity.
  - destruct (Hnb _ _ _ Hn) as (_ & _ & Hcls & Hin).
    apply nodup_In, Hcls, Hin.
Qed.

(** C10. When [msg] is present the view succeeds, whatever the string: the
    empty string and any other text get a JSON prediction; the view puts no
    condition on the length or the content of the text. *)
Theorem is_spam_total (g : Globals) (req : Request) :
  tfidf_width_contract -> nb_fit_contract -> startup = Ok g ->
  method req = GET -> path req = "/is_spam" ->
  (exists v, In ("msg", v) (args req)) ->
  (exists label,
     wsgi_app app req g = (mkResponse 200 (Json [("prediction", label)]), g)) /\
  (forall msg, exists label,
     fst (is_spam [] (mkRequest GET "/is_spam" [("msg", msg)]) g)
     = Ok (mkResponse 200 (Json [("prediction", label)]))) /\
  (exists label,
     fst (is_spam [] (mkRequest GET "/is_spam" [("msg", "")]) g)
     = Ok (mkResponse 200 (Json [("prediction", label)]))).
Proof.
  intros Hw Hnb Hs Hm Hp [v Hin].
  assert (Hview : forall msg, exists label,
    fst (is_spam [] (mkRequest GET "/is_spam" [("msg", msg)]) g)
    = Ok (mkResponse 200 (Json [("prediction", label)]))).
  { intros msg. eexists. unfold is_spam; run_view.
    change (getitem (args (mkRequest GET "/is_spam" [("msg", msg)])) "msg")
      with (Ok msg : Result string).
    cbv beta iota. rewrite (paired_prediction Hw Hnb Hs msg). reflexivity. }
  split; [|split; [exact Hview|apply Hview]].
  destruct (getitem_present _ _ _ Hin) as [msg Hmsg].
  eexists. rewrite (is_spam_run g req Hm Hp Hmsg). unfold spec_prediction.
  rewrite (paired_prediction Hw Hnb Hs msg). reflexivity.
Qed.

End HelloClaims.

(** ** app.py *)

Lemma pos_of_nat_Z (n : nat) : n <> 0 -> Z.pos (Pos.of_nat n) = Z.of_nat n.
Proof.
  intros Hn. rewrite <- positive_nat_Z, Nat2Pos.id by assumption. reflexivity.
Qed.

(** The mean of a non-empty array of booleans is a fraction between 0 and
    1: the share of [True]. *)
Lemma mean_bounds (bs : list bool) :
  bs <> [] ->
  exists q, mean bs = Real q /\ (0 <= q)%Q /\ (q <= 1)%Q /\
            q = (Z.of_nat (List.length (filter (fun b => b) bs))
                 # Pos.of_nat (List.length bs)).
Proof.
  intros Hne. destruct bs as [|b bs]; [contradiction|].
  eexists. split; [reflexivity|].
  pose proof (filter_length_le (fun b => b) (b :: bs)) as Hle.
  set (k := List.length (filter (fun b => b) (b :: bs))) in *.
  set (n := List.length (b :: bs)) in *.
  assert (Hn : n <> 0) by (unfold n; simpl; discriminate).
  unfold Qle; cbn [Qnum Qden]. rewrite (pos_of_nat_Z Hn).
  repeat split; lia.
Qed.

Section BankFacts.
Context {P : Pandas} {S : Sklearn P} {F : Flask}.
Import BankApp.

Lemma bank_views_read_only (e : Endpoint) :
  reads_only (view_functions app e).
Proof.
  intros kw req g; destruct e; simpl;
    [apply send_static_file_reads_only|].
  unfold hello; run_view; simpl.
  destruct (templates "report.html"); reflexivity.
Qed.

(** What the loader leaves in the globals. *)
Lemma bank_startup_inv (rs : RandomState) (g : Globals) :
  startup rs = Ok g ->
  train_test_split rs (X g) (y g)
  = Ok (X_train g, X_test g, y_train g, y_test g) /\
  lr_fit {| solver := "newton-cg" |} (X_train g) (y_train g) = Ok (clf g) /\
  cross_val_predict (clf g) (X_test g) (y_test g) 5 = Ok (preds g) /\
  accuracy_score (y_test g) (preds g) = Ok (score g).
Proof.
  unfold startup, rbind.
  destruct (read_csv _ _ _) as [b|]; [|discriminate].
  destruct (column b "job") as [j|]; [|discriminate].
  destruct (columns b ["age"; "duration"]) as [xn|]; [|discriminate].
  destruct (columns b ["loan"; "marital"; "job"]) as [c|]; [|discriminate].
  destruct (concat _ 1) as [x|]; [|discriminate].
  destruct (column b "y") as [t|]; [|discriminate].
  destruct (train_test_split rs x t) as [[[[xtr xte] ytr] yte]|] eqn:Hsplit;
    [|discriminate].
  destruct (lr_fit _ xtr ytr) as [c'|] eqn:Hfit; [|discriminate].
  destruct (cross_val_predict c' xte yte 5) as [p|] eqn:Hcv; [|discriminate].
  destruct (accuracy_score yte p) as [s|] eqn:Hacc; [|discriminate].
  intros [= <-]; simpl. repeat split; assumption.
Qed.

Lemma report_run (g : Globals) (req : Request) :
  method req = GET -> path req = "/" ->
  wsgi_app app req g = (page "report.html" [("a", VFloat (score g))], g).
Proof.
  destruct req as [m p a]; simpl; intros -> ->.
  unfold wsgi_app, dispatch_request, page; run_view; simpl.
  unfold hello; run_view; simpl.
  destruct (templates "report.html"); reflexivity.
Qed.

(** C5. The loader computes the score once, from a train/test split and
    the cross-validated predictions over the held-out part; no request of
    any kind changes the globals, and every GET / is answered with the page
    that embeds that one score. *)
Theorem score_fixed (rs : RandomState) (g : Globals) :
  startup rs = Ok g ->
  train_test_split rs (X g) (y g)
  = Ok (X_train g, X_test g, y_train g, y_test g) /\
  cross_val_predict (clf g) (X_test g) (y_test g) 5 = Ok (preds g) /\
  accuracy_score (y_test g) (preds g) = Ok (score g) /\
  forall reqs : list Request,
    snd (serve app g reqs) = g /\
    forall i req,
      nth_error reqs i = Some req ->
      method req = GET -> path req = "/" ->
      nth_error (fst (serve app g reqs)) i
      = Some (page "report.html" [("a", VFloat (score g))]).
Proof.
  intros Hs. destruct (bank_startup_inv rs Hs) as (Hsplit & _ & Hcv & Hacc).
  repeat (split; [assumption|]). intros reqs. split.
  - rewrite (serve_map app bank_views_read_only). reflexivity.
  - intros i req Hi Hm Hp.
    rewrite (serve_nth app bank_views_read_only g reqs i Hi).
    rewrite (report_run g req Hm Hp). reflexivity.
Qed.

(** C6. The score on the report page is one number between 0 and 1: the
    share of held-out samples whose prediction equals their label. *)
Theorem score_in_unit_interval (rs : RandomState) (g : Globals) :
  cross_val_predict_contract -> startup rs = Ok g ->
  exists q,
    score g = Real q /\ (0 <= q)%Q /\ (q <= 1)%Q /\
    q = (Z.of_nat (List.length
                     (filter (fun p => String.eqb (fst p) (snd p))
                             (combine (y_test g) (preds g))))
         # Pos.of_nat (List.length (y_test g))) /\
    forall req, method req = GET -> path req = "/" ->
      fst (wsgi_app app req g) = page "report.html" [("a", VFloat (Real q))].
Proof.
  intros Hcv Hs. destruct (bank_startup_inv rs Hs) as (_ & _ & Hp & Hacc).
  destruct (Hcv _ _ _ _ _ Hp) as [Hlen Hfolds].
  unfold accuracy_score in Hacc. rewrite Hlen, Nat.eqb_refl in Hacc.
  injection Hacc as Hscore.
  set (bs := map (fun p => String.eqb (fst p) (snd p))
                 (combine (y_test g) (preds g))) in *.
  assert (Hbs : List.length bs = List.length (y_test g)).
  { unfold bs. rewrite length_map, length_combine, Hlen. apply Nat.min_id. }
  assert (Hne : bs <> []).
  { intros E. rewrite E in Hbs. simpl in Hbs. lia. }
  destruct (mean_bounds Hne) as (q & Hq & H0 & H1 & Hfrac).
  exists q. rewrite <- Hscore, Hq. split; [reflexivity|].
  repeat (split; [assumption|]). split.
  - rewrite Hfrac, Hbs. f_equal. f_equal. unfold bs.
    clear. induction (combine (y_test g) (preds g)) as [|p l IH]; simpl;
      [reflexivity|].
    destruct (String.eqb (fst p) (snd p)); simpl; rewrite IH; reflexivity.
  - intros req Hm Hpath. rewrite (report_run g req Hm Hpath); simpl.
    rewrite <- Hscore, Hq. reflexivity.
Qed.

End BankFacts.

(** ** The instance meets the contracts *)

Lemma In_firstn {A} (n : nat) (l : list A) (x : A) :
  In x (firstn n l) -> In x l.
Proof.
  revert l; induction n as [|n IH]; intros [|a l]; simpl; try contradiction.
  intros [->|Hin]; [left; reflexivity|right; apply IH; assumption].
Qed.

Lemma hd_In {A} (d : A) (l : list A) : l <> [] -> In (hd d l) l.
Proof. destruct l; [contradiction|left; reflexivity]. Qed.

Lemma last_In {A} (d : A) (l : list A) : l <> [] -> In (last l d) l.
Proof.
  induction l as [|a l IH]; [contradiction|]. intros _.
  destruct l as [|b l]; [left; reflexivity|].
  right. apply IH. discriminate.
Qed.

Lemma toy_tfidf_width : @tfidf_width_contract Toy.pandas Toy.sklearn.
Proof. intros p docs v _ s. simpl. apply length_map. Qed.

Lemma toy_tfidf_vocabulary : @tfidf_vocabulary_contract Toy.pandas Toy.sklearn.
Proof.
  intros p docs v Hfit. simpl in *.
  assert (Hv : v = Toy.vocabulary_of p docs).
  { destruct (Toy.vocabulary_of p docs); [discriminate|congruence]. }
  clear Hfit. subst v. unfold Toy.vocabulary_of. split.
  - intros k ->. apply firstn_le_length.
  - intros l w -> Hstop Hin.
    assert (Hkept : In w (filter (fun w => negb (Toy.member w (Toy.stops l)))
                                 (flat_map Toy.words docs))).
    { destruct (max_features p); [apply In_firstn in Hin|];
        apply nodup_In in Hin; exact Hin. }
    apply filter_In in Hkept as [_ Hneg].
    apply negb_true_iff in Hneg.
    assert (Hmem : Toy.member w (Toy.stops l) = true).
    { apply existsb_exists. exists w. split; [assumption|apply String.eqb_refl]. }
    congruence.
Qed.

Lemma toy_nb_fit : @nb_fit_contract Toy.pandas Toy.sklearn.
Proof.
  intros X y c Hfit. simpl in *. unfold Toy.nb_fit_toy in Hfit.
  destruct X as [|r0 X']; [discriminate|].
  destruct (_ && _) eqn:E; [|discriminate].
  injection Hfit as <-. apply andb_prop in E as [Elen Erows].
  split; [discriminate|]. split; [|split].
  - apply Forall_forall. intros r Hr.
    rewrite forallb_forall in Erows. apply Nat.eqb_eq, Erows, Hr.
  - intros l. simpl. apply nodup_In.
  - intros r. simpl.
    assert (Hne : nodup string_dec y <> []).
    { destruct y as [|a y']; [discriminate|].
      intros E. assert (Ha : In a (nodup string_dec (a :: y')))
        by (apply nodup_In; left; reflexivity).
      rewrite E in Ha. contradiction. }
    unfold Toy.nb_row; simpl.
    destruct (list_sum r =? 0); [apply hd_In|apply last_In]; assumption.
Qed.

Lemma toy_cross_val_predict :
  @cross_val_predict_contract Toy.pandas Toy.sklearn.
Proof.
  intros est X y cv preds Hcv. simpl in *.
  destruct (cv <=? List.length y) eqn:E; [|discriminate].
  injection Hcv as <-. split; [apply length_map|apply Nat.leb_le; assumption].
Qed.

(** ** The claims, run on the instance *)

Lemma toy_startup : @Hello.startup Toy.pandas Toy.sklearn = Ok Toy.spam_globals.
Proof. vm_compute. reflexivity. Qed.

Lemma toy_bank_startup :
  @BankApp.startup Toy.pandas Toy.sklearn 0 = Ok Toy.bank_globals.
Proof. vm_compute. reflexivity. Qed.

Lemma is_spam_contract_witness :
  exists x label,
    transform (Hello.cvec Toy.spam_globals) ["free cash"] = [x] /\
    predict (Hello.clf Toy.spam_globals) [x] = Ok [label] /\
    @wsgi_app Toy.flask _ _ Toy.spam_app
      (mkRequest GET "/is_spam" [("msg", "free cash")]) Toy.spam_globals
    = (mkResponse 200 (Json [("prediction", label)]), Toy.spam_globals).
Proof.
  apply (@is_spam_contract Toy.pandas Toy.sklearn Toy.flask Toy.spam_globals
           (mkRequest GET "/is_spam" [("msg", "free cash")]) "free cash"
           toy_tfidf_width toy_nb_fit toy_startup);
    reflexivity.
Defined.

Lemma table_cached_witness :
  nth_error (fst (@serve Toy.flask _ _ Toy.spam_app Toy.spam_globals Toy.session)) 7
  = Some (@page Toy.flask "table.html"
            [("table", VStr (to_html (Hello.df Toy.spam_globals)))]).
Proof.
  apply (proj2 (proj2 (@table_cached Toy.pandas Toy.sklearn Toy.flask
                         Toy.spam_globals toy_startup) Toy.session)
           7 (mkRequest GET "/table" []));
    reflexivity.
Defined.

Lemma is_spam_missing_msg_witness :
  @serve Toy.flask _ _ Toy.spam_app Toy.spam_globals
    [mkRequest GET "/is_spam" [("lang", "en")]; mkRequest GET "/table" []]
  = (mkResponse 400 (Html "Bad Request")
       :: fst (@serve Toy.flask _ _ Toy.spam_app Toy.spam_globals
                 [mkRequest GET "/table" []]),
     Toy.spam_globals).
Proof.
  apply (@is_spam_missing_msg Toy.pandas Toy.sklearn Toy.flask Toy.spam_globals
           (mkRequest GET "/is_spam" [("lang", "en")])
           [mkRequest GET "/table" []]);
    try reflexivity.
  intros v [H|[]]; discriminate H.
Defined.

(** C3 as first stated does not hold: started the way the script starts
    itself, the service answers a GET /is_spam without [msg] with 500, which
    is no 400-class status; the next request is served as usual. *)
Lemma is_spam_missing_msg_debug_counterexample :
  ~ (400 <= status
              (fst (@wsgi_app Toy.flask_debug _ _
                      (@Hello.app Toy.pandas Toy.sklearn Toy.flask_debug)
                      (mkRequest GET "/is_spam" [("lang", "en")])
                      Toy.spam_globals)) < 500) /\
  map status
    (fst (@serve Toy.flask_debug _ _
            (@Hello.app Toy.pandas Toy.sklearn Toy.flask_debug)
            Toy.spam_globals
            [mkRequest GET "/is_spam" [("lang", "en")];
             mkRequest GET "/table" []]))
  = [500; 200].
Proof. split; [vm_compute; lia|vm_compute; reflexivity]. Qed.

Lemma is_spam_deterministic_witness :
  exists resp,
    nth_error (fst (@serve Toy.flask _ _ Toy.spam_app Toy.spam_globals Toy.session)) 1
    = Some resp /\
    nth_error (fst (@serve Toy.flask _ _ Toy.spam_app Toy.spam_globals Toy.session)) 3
    = Some resp.
Proof.
  apply (@is_spam_deterministic Toy.pandas Toy.sklearn Toy.flask
           Toy.spam_globals Toy.spam_globals Toy.session Toy.session 1 3
           (mkRequest GET "/is_spam" [("msg", "free cash")])
           (mkRequest GET "/is_spam"
              [("lang", "en"); ("msg", "free cash"); ("msg", "lunch")]));
    reflexivity.
Defined.

Lemma score_fixed_witness :
  snd (@serve Toy.flask _ _ Toy.bank_app Toy.bank_globals
         [mkRequest GET "/" []; mkRequest POST "/" []; mkRequest GET "/" []])
  = Toy.bank_globals /\
  nth_error
    (fst (@serve Toy.flask _ _ Toy.bank_app Toy.bank_globals
            [mkRequest GET "/" []; mkRequest POST "/" []; mkRequest GET "/" []]))
    2
  = Some (@page Toy.flask "report.html"
            [("a", VFloat (BankApp.score Toy.bank_globals))]).
Proof.
  destruct (@score_fixed Toy.pandas Toy.sklearn Toy.flask 0 Toy.bank_globals
              toy_bank_startup) as (_ & _ & _ & Hserve).
  destruct (Hserve [mkRequest GET "/" []; mkRequest POST "/" [];
                    mkRequest GET "/" []]) as [Hframe Hpage].
  split; [exact Hframe|].
  apply (Hpage 2 (mkRequest GET "/" [])); reflexivity.
Defined.

Lemma score_in_unit_interval_witness :
  exists q,
    BankApp.score Toy.bank_globals = Real q /\ (0 <= q)%Q /\ (q <= 1)%Q.
Proof.
  destruct (@score_in_unit_interval Toy.pandas Toy.sklearn Toy.flask 0
              Toy.bank_globals toy_cross_val_predict toy_bank_startup)
    as (q & Hq & H0 & H1 & _).
  exists q. repeat split; assumption.
Defined.

Lemma one_fitted_transformer_witness :
  List.length (vocabulary_ (Hello.cvec Toy.spam_globals)) <= 300 /\
  nth_error (fst (@serve Toy.flask _ _ Toy.spam_app Toy.spam_globals Toy.session)) 6
  = Some (@Hello.spec_prediction Toy.pandas Toy.sklearn Toy.flask
            (Hello.cvec Toy.spam_globals) (Hello.clf Toy.spam_globals) "").
Proof.
  destruct (@one_fitted_transformer Toy.pandas Toy.sklearn Toy.flask
              Toy.spam_globals toy_tfidf_vocabulary toy_startup)
    as (_ & Hmax & _ & Hserve).
  split; [exact Hmax|].
  apply (proj2 (Hserve Toy.session) 6 (mkRequest GET "/is_spam" [("msg", "")]));
    reflexivity.
Defined.

Lemma greet_contract_witness :
  exists b,
    fst (@wsgi_app Toy.flask _ _ Toy.spam_app (mkRequest GET "/greet/Jacob" [])
           Toy.spam_globals)
    = mkResponse 200 (Html b) /\
    substring_of "Jacob" b.
Proof.
  destruct (@greet_contract Toy.pandas Toy.sklearn Toy.flask Toy.spam_globals
              (mkRequest GET "/greet/Jacob" []) "Jacob" eq_refl eq_refl)
    as (_ & _ & Hjacob).
  apply (Hjacob [Text "<h1>Hello, "; Var "name"; Text "!</h1>"]);
    [reflexivity|left; right; left; reflexivity|reflexivity].
Defined.

Lemma prediction_in_training_labels_witness :
  exists label,
    fst (@wsgi_app Toy.flask _ _ Toy.spam_app
           (mkRequest GET "/is_spam" [("msg", "win a prize")]) Toy.spam_globals)
    = mkResponse 200 (Json [("prediction", label)]) /\
    In label (nodup string_dec (Hello.y Toy.spam_globals)).
Proof.
  apply (@prediction_in_training_labels Toy.pandas Toy.sklearn Toy.flask
           Toy.spam_globals (mkRequest GET "/is_spam" [("msg", "win a prize")])
           "win a prize" toy_tfidf_width toy_nb_fit toy_startup);
    reflexivity.
Defined.

Lemma is_spam_total_witness :
  exists label,
    @wsgi_app Toy.flask _ _ Toy.spam_app
      (mkRequest GET "/is_spam" [("msg", "")]) Toy.spam_globals
    = (mkResponse 200 (Json [("prediction", label)]), Toy.spam_globals).
Proof.
  apply (@is_spam_total Toy.pandas Toy.sklearn Toy.flask Toy.spam_globals
           (mkRequest GET "/is_spam" [("msg", "")])
           toy_tfidf_width toy_nb_fit toy_startup eq_refl eq_refl).
  exists "". left. reflexivity.
Defined.

(** The whole session of the spam service on the instance, response by
    response. *)
Example toy_session :
  map status (fst (@serve Toy.flask _ _ Toy.spam_app Toy.spam_globals Toy.session))
  = [200; 200; 200; 200; 400; 405; 200; 200] /\
  map body (fst (@serve Toy.flask _ _ Toy.spam_app Toy.spam_globals
                   (firstn 5 (skipn 1 Toy.session))))
  = [ Json [("prediction", "spam")];
      Html "<h1>Hello, Jacob!</h1>";
      Json [("prediction", "spam")];
      Html "Bad Request";
      Html "Method Not Allowed" ].
Proof. split; vm_compute; reflexivity. Qed.

Example toy_empty_message :
  fst (@wsgi_app Toy.flask _ _ Toy.spam_app
         (mkRequest GET "/is_spam" [("msg", "")]) Toy.spam_globals)
  = mkResponse 200 (Json [("prediction", "ham")]).
Proof. vm_compute. reflexivity. Qed.

Example toy_escaped_name :
  fst (@wsgi_app Toy.flask _ _ Toy.spam_app
         (mkRequest GET "/greet/<b>" []) Toy.spam_globals)
  = mkResponse 200 (Html "<h1>Hello, &lt;b&gt;!</h1>").
Proof. vm_compute. reflexivity. Qed.

Example toy_report :
  BankApp.score Toy.bank_globals = Real (4 # 5) /\
  fst (@wsgi_app Toy.flask _ _ Toy.bank_app (mkRequest GET "/" [])
         Toy.bank_globals)
  = mkResponse 200 (Html "<p>Accuracy: 4/5</p>").
Proof. split; vm_compute; reflexivity. Qed.

(** * Further properties of the two scripts *)

(** ** Matching a path *)

Lemma strip_prefix_Some (pre p s : string) :
  strip_prefix pre p = Some s -> p = (pre ++ s)%string.
Proof.
  revert p; induction pre as [|a pre IH]; intros [|b p]; simpl;
    try discriminate; try (intros [= ->]; reflexivity).
  destruct (Ascii.eqb_spec a b) as [->|]; [|discriminate].
  intros H; rewrite (IH _ H); reflexivity.
Qed.


(** No rule fits the path: 404, or 405 when an earlier rule had fitted. *)
Lemma url_match_no_rule {E : Type} (rules : list (Rule * list Method * E))
  (m : Method) (p : string) (b : bool) :
  (forall r ms e, In (r, ms, e) rules -> match_rule r p = None) ->
  url_match rules m p b = Raise (if b then MethodNotAllowed else NotFound).
Proof.
  revert b; induction rules as [|[[r ms] e] rules IH]; intros b Hno; simpl;
    [reflexivity|].
  rewrite (Hno r ms e) by (left; reflexivity).
  apply IH. intros r0 ms0 e0 Hin. apply (Hno r0 ms0 e0). right; exact Hin.
Qed.

Lemma getitem_first (pre rest : MultiDict) (key v : string) :
  (forall w, ~ In (key, w) pre) ->
  getitem (pre ++ (key, v) :: rest) key = Ok v.
Proof.
  induction pre as [|[k w] pre IH]; simpl; intros Hno.
  - rewrite String.eqb_refl. reflexivity.
  - destruct (String.eqb_spec k key) as [->|Hne].
    + exfalso. apply (Hno w). left; reflexivity.
    + apply IH. intros w' Hin. apply (Hno w'). right; exact Hin.
Qed.

(** ** hello.py: the router and the views around /is_spam *)

Section HelloMore.
Context {P : Pandas} {S : Sklearn P} {F : Flask}.
Import Hello.


(** X1. A path without doubled slashes that is none of /table, /is_spam,
    /, /greet/<segment> and /static/<path> is answered with the page of
    NotFound, whatever the method and the query; no view runs and the
    globals are as before. The status is 404 unless the framework traps the
    exception. *)
Theorem hello_not_found (g : Globals) (req : Request) :
  no_double_slash (path req) = true ->
  path req <> "/table" -> path req <> "/is_spam" -> path req <> "/" ->
  (forall name, is_segment name = true ->
                path req <> ("/greet/" ++ name)%string) ->
  (forall f, is_path f = true -> path req <> ("/static/" ++ f)%string) ->
  wsgi_app app req g = (finalize req (handle_user_exception NotFound), g) /\
  (trap_http_exception NotFound = false ->
   status (fst (wsgi_app app req g)) = 404).
Proof.
  intros _ Ht Hs Hh Hg Hst.
  assert (Hm : url_match (url_map app) (method req) (path req) false
               = Raise NotFound).
  { apply (url_match_no_rule (url_map app) (method req) (path req) false).
    intros r ms e Hin. simpl in Hin.
    destruct Hin as [Hin|[Hin|[Hin|[Hin|[Hin|[]]]]]];
      injection Hin as <- <- <-; cbn [match_rule static_rule].
    2-4: match goal with
         | |- (if String.eqb ?s ?p then _ else _) = _ =>
             destruct (String.eqb_spec s p) as [E|]; [|reflexivity]
         end; exfalso; auto.
    { destruct (strip_prefix "/static/" (path req)) as [f|] eqn:E;
        [|reflexivity].
      destruct (is_path f) eqn:Hf; [|reflexivity].
      exfalso. apply (Hst f Hf). apply strip_prefix_Some. exact E. }
    destruct (strip_prefix "/greet/" (path req)) as [seg|] eqn:E;
      [|reflexivity].
    destruct (is_segment seg) eqn:Hseg; [|reflexivity].
    exfalso. apply (Hg seg Hseg). apply strip_prefix_Some. exact E. }
  assert (Hw : wsgi_app app req g
               = (finalize req (handle_user_exception NotFound), g)).
  { unfold wsgi_app, dispatch_request; run_view. rewrite Hm. reflexivity. }
  split; [exact Hw|].
  intros Htrap. rewrite Hw; simpl.
  unfold finalize, handle_user_exception; simpl. rewrite Htrap.
  destruct (method req); reflexivity.
Qed.

(** X2. POST, PUT and DELETE on a declared path are answered with the page
    of MethodNotAllowed: no view runs, so a POST to /is_spam gets no
    prediction, with or without [msg]. The globals are as before. *)
Theorem hello_method_not_allowed (g : Globals) (req : Request) :
  method req <> GET -> method req <> HEAD -> method req <> OPTIONS ->
  (path req = "/table" \/ path req = "/is_spam" \/ path req = "/" \/
   exists name, is_segment name = true /\
                path req = ("/greet/" ++ name)%string) ->
  wsgi_app app req g = (handle_user_exception MethodNotAllowed, g).
Proof.
  destruct req as [m p a]; simpl. intros Hg Hh Ho Hp.
  unfold wsgi_app, dispatch_request; run_view; simpl.
  destruct Hp as [->|[->|[->|(name & Hseg & ->)]]];
    destruct m; try contradiction; simpl; try rewrite Hseg; reflexivity.
Qed.


(** X4. What the loader leaves fits together: the table is not empty, the
    training matrix has one row per message, and every training row and
    every row made from a request has exactly the width the classifier was
    fitted on, which is the size of the vocabulary and at most 300. *)
Theorem fitted_pair_shapes (g : Globals) :
  tfidf_width_contract -> tfidf_vocabulary_contract -> nb_fit_contract ->
  startup = Ok g ->
  exists corpus,
    column (df g) "msg" = Ok corpus /\
    corpus <> [] /\
    List.length (X g) = List.length corpus /\
    n_features_in_ (clf g) = List.length (vocabulary_ (cvec g)) /\
    n_features_in_ (clf g) <= 300 /\
    Forall (fun r => List.length r = n_features_in_ (clf g)) (X g) /\
    forall s, List.length (tfidf_row (cvec g) s) = n_features_in_ (clf g).
Proof.
  intros Hw Hvoc Hnb Hs.
  destruct (startup_inv Hs) as (raw & corpus & _ & _ & _ & Hc & _ & Hv & HX & Hn).
  destruct (Hnb _ _ _ Hn) as (Hne & Hrows & _).
  destruct (Hvoc _ _ _ Hv) as [Hmax _].
  pose proof (paired_width Hw Hnb Hs) as Hpair.
  assert (Hwidth : n_features_in_ (clf g) = List.length (vocabulary_ (cvec g))).
  { rewrite <- (Hpair ""). apply (Hw _ _ _ Hv). }
  exists corpus. split; [exact Hc|]. split.
  - intros ->. apply Hne. rewrite HX. reflexivity.
  - split; [rewrite HX; apply length_map|].
    split; [exact Hwidth|]. split; [rewrite Hwidth; apply Hmax; reflexivity|].
    split; [exact Hrows|exact Hpair].
Qed.

(** X5. When [msg] occurs several times in the query, the first occurrence
    is the text that is classified; later occurrences and all other
    parameters have no effect on the answer. *)
Theorem first_msg_wins (g : Globals) (req : Request) (pre rest : MultiDict)
  (msg : string) :
  method req = GET -> path req = "/is_spam" ->
  args req = pre ++ ("msg", msg) :: rest ->
  (forall v, ~ In ("msg", v) pre) ->
  wsgi_app app req g
  = wsgi_app app (mkRequest GET "/is_spam" [("msg", msg)]) g /\
  wsgi_app app req g = (spec_prediction (cvec g) (clf g) msg, g).
Proof.
  intros Hm Hp Ha Hno.
  assert (Hget : getitem (args req) "msg" = Ok msg)
    by (rewrite Ha; apply getitem_first; exact Hno).
  rewrite (is_spam_run g req Hm Hp Hget).
  split; [|reflexivity]. symmetry.
  apply is_spam_run; simpl; try reflexivity.
Qed.

(** X6. The service keeps no session: serving two batches of requests one
    after the other gives the responses of serving each batch on its own,
    so an answer never depends on the requests that came before. *)
Theorem hello_serve_app (g : Globals) (reqs1 reqs2 : list Request) :
  fst (serve app g (reqs1 ++ reqs2))
  = fst (serve app g reqs1) ++ fst (serve app g reqs2) /\
  snd (serve app g (reqs1 ++ reqs2)) = g.
Proof.
  rewrite !(serve_map app hello_views_read_only); simpl.
  split; [apply map_app|reflexivity].
Qed.

End HelloMore.

(** ** app.py: the router, the loader and the report *)

Section BankMore.
Context {P : Pandas} {S : Sklearn P} {F : Flask}.
Import BankApp.

(** X7. The bank service has one page of its own: a path without doubled
    slashes other than / and /static/<path> is answered with the page of
    NotFound, whatever the method, and the globals are as before. The status
    is 404 unless the framework traps the exception. *)
Theorem bank_not_found (g : Globals) (req : Request) :
  no_double_slash (path req) = true ->
  path req <> "/" ->
  (forall f, is_path f = true -> path req <> ("/static/" ++ f)%string) ->
  wsgi_app app req g = (finalize req (handle_user_exception NotFound), g) /\
  (trap_http_exception NotFound = false ->
   status (fst (wsgi_app app req g)) = 404).
Proof.
  intros _ Hp Hst.
  assert (Hm : url_match (url_map app) (method req) (path req) false
               = Raise NotFound).
  { apply (url_match_no_rule (url_map app) (method req) (path req) false).
    intros r ms e [Hin|[Hin|[]]]; injection Hin as <- <- <-;
      cbn [match_rule static_rule].
    - destruct (strip_prefix "/static/" (path req)) as [f|] eqn:E;
        [|reflexivity].
      destruct (is_path f) eqn:Hf; [|reflexivity].
      exfalso. apply (Hst f Hf). apply strip_prefix_Some. exact E.
    - destruct (String.eqb_spec "/" (path req)) as [E|]; [|reflexivity].
      exfalso; auto. }
  assert (Hw : wsgi_app app req g
               = (finalize req (handle_user_exception NotFound), g)).
  { unfold wsgi_app, dispatch_request; run_view. rewrite Hm. reflexivity. }
  split; [exact Hw|].
  intros Htrap. rewrite Hw; simpl.
  unfold finalize, handle_user_exception; simpl. rewrite Htrap.
  destruct (method req); reflexivity.
Qed.

(** X8. POST, PUT and DELETE on / are answered with the page of
    MethodNotAllowed; the report is not rendered and the globals are as
    before. *)
Theorem bank_method_not_allowed (g : Globals) (req : Request) :
  method req <> GET -> method req <> HEAD -> method req <> OPTIONS ->
  path req = "/" ->
  wsgi_app app req g = (handle_user_exception MethodNotAllowed, g).
Proof.
  destruct req as [m p a]; simpl. intros Hg Hh Ho ->.
  unfold wsgi_app, dispatch_request; run_view; simpl.
  destruct m; try contradiction; reflexivity.
Qed.

(** X9. A bank service that has started holds at least five held-out
    samples, and exactly one prediction for each of them: with fewer rows in
    the test part the five-fold prediction raises and the import fails. *)
Theorem held_out_size (rs : RandomState) (g : Globals) :
  cross_val_predict_contract -> startup rs = Ok g ->
  5 <= List.length (y_test g) /\
  List.length (preds g) = List.length (y_test g).
Proof.
  intros Hcv Hs. destruct (bank_startup_inv rs Hs) as (_ & _ & Hp & _).
  destruct (Hcv _ _ _ _ _ Hp) as [Hlen Hfolds]. split; assumption.
Qed.


(** X11. The bank service keeps no session either: the responses to two
    batches served in a row are those of each batch served on its own. *)
Theorem bank_serve_app (g : Globals) (reqs1 reqs2 : list Request) :
  fst (serve app g (reqs1 ++ reqs2))
  = fst (serve app g reqs1) ++ fst (serve app g reqs2) /\
  snd (serve app g (reqs1 ++ reqs2)) = g.
Proof.
  rewrite !(serve_map app bank_views_read_only); simpl.
  split; [apply map_app|reflexivity].
Qed.

End BankMore.

(** ** The further properties, run on the instance *)

Lemma hello_not_found_witness :
  @wsgi_app Toy.flask _ _ Toy.spam_app (mkRequest GET "/greet/a/b" [])
    Toy.spam_globals
  = (mkResponse 404 (Html "Not Found"), Toy.spam_globals).
Proof.
  apply (@hello_not_found Toy.pandas Toy.sklearn Toy.flask Toy.spam_globals
           (mkRequest GET "/greet/a/b" []));
    try discriminate; try reflexivity.
  intros name Hseg H. simpl in H. injection H as <-. discriminate Hseg.
Defined.

Lemma hello_method_not_allowed_witness :
  @wsgi_app Toy.flask _ _ Toy.spam_app
    (mkRequest POST "/is_spam" [("msg", "free cash")]) Toy.spam_globals
  = (mkResponse 405 (Html "Method Not Allowed"), Toy.spam_globals).
Proof.
  apply (@hello_method_not_allowed Toy.pandas Toy.sklearn Toy.flask
           Toy.spam_globals (mkRequest POST "/is_spam" [("msg", "free cash")]));
    try discriminate.
  right; left; reflexivity.
Defined.


Lemma fitted_pair_shapes_witness :
  exists corpus,
    column (Hello.df Toy.spam_globals) "msg" = Ok corpus /\
    corpus <> [] /\
    List.length (Hello.X Toy.spam_globals) = List.length corpus /\
    n_features_in_ (Hello.clf Toy.spam_globals)
    = List.length (vocabulary_ (Hello.cvec Toy.spam_globals)) /\
    n_features_in_ (Hello.clf Toy.spam_globals) <= 300 /\
    Forall (fun r => List.length r = n_features_in_ (Hello.clf Toy.spam_globals))
           (Hello.X Toy.spam_globals) /\
    forall s, List.length (tfidf_row (Hello.cvec Toy.spam_globals) s)
              = n_features_in_ (Hello.clf Toy.spam_globals).
Proof.
  exact (@fitted_pair_shapes Toy.pandas Toy.sklearn Toy.spam_globals
           toy_tfidf_width toy_tfidf_vocabulary toy_nb_fit toy_startup).
Defined.

Lemma first_msg_wins_witness :
  @wsgi_app Toy.flask _ _ Toy.spam_app
    (mkRequest GET "/is_spam"
       [("lang", "en"); ("msg", "free cash"); ("msg", "lunch")])
    Toy.spam_globals
  = @wsgi_app Toy.flask _ _ Toy.spam_app
      (mkRequest GET "/is_spam" [("msg", "free cash")]) Toy.spam_globals.
Proof.
  apply (@first_msg_wins Toy.pandas Toy.sklearn Toy.flask Toy.spam_globals
           (mkRequest GET "/is_spam"
              [("lang", "en"); ("msg", "free cash"); ("msg", "lunch")])
           [("lang", "en")] [("msg", "lunch")] "free cash");
    try reflexivity.
  intros v [H|[]]; discriminate H.
Defined.

Lemma bank_not_found_witness :
  @wsgi_app Toy.flask _ _ Toy.bank_app (mkRequest GET "/table" [])
    Toy.bank_globals
  = (mkResponse 404 (Html "Not Found"), Toy.bank_globals).
Proof.
  apply (@bank_not_found Toy.pandas Toy.sklearn Toy.flask Toy.bank_globals
           (mkRequest GET "/table" []));
    try discriminate; reflexivity.
Defined.

Lemma bank_method_not_allowed_witness :
  @wsgi_app Toy.flask _ _ Toy.bank_app (mkRequest POST "/" [])
    Toy.bank_globals
  = (mkResponse 405 (Html "Method Not Allowed"), Toy.bank_globals).
Proof.
  apply (@bank_method_not_allowed Toy.pandas Toy.sklearn Toy.flask
           Toy.bank_globals (mkRequest POST "/" []));
    try discriminate; reflexivity.
Defined.

Lemma held_out_size_witness :
  5 <= List.length (BankApp.y_test Toy.bank_globals) /\
  List.length (BankApp.preds Toy.bank_globals)
  = List.length (BankApp.y_test Toy.bank_globals).
Proof.
  exact (@held_out_size Toy.pandas Toy.sklearn 0 Toy.bank_globals
           toy_cross_val_predict toy_bank_startup).
Defined.


Section HelloPages.
Context {P : Pandas} {S : Sklearn P} {F : Flask}.
Import Hello.

(** X12. For every name that is one path segment, when [index.html]
    interpolates [name] the body of /greet/<name> contains the escaped
    name; a name that escaping leaves as it is shows up unchanged. *)
Theorem greet_echoes_name (g : Globals) (req : Request) (name : string)
  (t : Template) :
  method req = GET -> path req = ("/greet/" ++ name)%string ->
  is_segment name = true ->
  templates "index.html" = Some t -> In (Var "name") t ->
  exists b,
    wsgi_app app req g = (mkResponse 200 (Html b), g) /\
    substring_of (escape name) b /\
    (escape name = name -> substring_of name b).
Proof.
  intros Hm Hp Hseg Ht Hin.
  exists (render t [("name", VStr name)]).
  rewrite (greet_run g req Hm Hp), Hseg. unfold page; rewrite Ht.
  split; [reflexivity|].
  pose proof (render_shows t [("name", VStr name)] _ Hin) as Hsub.
  simpl in Hsub.
  split; [exact Hsub|]. intros E. rewrite E in Hsub. exact Hsub.
Qed.

(** X13. GET / is answered 200 with the fixed greeting page, which holds
    the heading [Hello World!], whatever the query string and whatever the
    globals hold; the view cannot raise. *)
Theorem hello_greeting (g : Globals) (a : MultiDict) :
  exists b,
    wsgi_app app (mkRequest GET "/" a) g = (mkResponse 200 (Html b), g) /\
    substring_of "<h2> Hello World! </h2>" b.
Proof.
  eexists. split; [reflexivity|].
  exists "
    <body>
    ", "
    </body>
    ". reflexivity.
Qed.

End HelloPages.

Lemma greet_echoes_name_witness :
  exists b,
    @wsgi_app Toy.flask _ _ Toy.spam_app (mkRequest GET "/greet/<b>" [])
      Toy.spam_globals
    = (mkResponse 200 (Html b), Toy.spam_globals) /\
    substring_of "&lt;b&gt;" b /\
    (escape "<b>" = "<b>" -> substring_of "<b>" b).
Proof.
  apply (@greet_echoes_name Toy.pandas Toy.sklearn Toy.flask Toy.spam_globals
           (mkRequest GET "/greet/<b>" []) "<b>"
           [Text "<h1>Hello, "; Var "name"; Text "!</h1>"]);
    try reflexivity.
  right; left; reflexivity.
Defined.

(** The static rule of [Flask(__name__)] on the instance: a file that is
    there, one that is not, and the methods the rule does not take. *)
Example toy_static :
  map (fun r => fst (@wsgi_app Toy.flask _ _ Toy.spam_app r Toy.spam_globals))
      [ mkRequest GET "/static/css/style.css" [];
        mkRequest GET "/static/x.css" [];
        mkRequest POST "/static/x.css" [];
        mkRequest OPTIONS "/static/x.css" [];
        mkRequest GET "/static/" [] ]
  = [ mkResponse 200 (File "h1 { color: navy }");
      mkResponse 404 (Html "Not Found");
      mkResponse 405 (Html "Method Not Allowed");
      mkResponse 200 Empty;
      mkResponse 404 (Html "Not Found") ] /\
  map (fun r => status (fst (@wsgi_app Toy.flask _ _ Toy.bank_app r
                               Toy.bank_globals)))
      [ mkRequest OPTIONS "/static/x.css" [];
        mkRequest POST "/static/x.css" [];
        mkRequest GET "/static/x.css" [] ]
  = [200; 405; 404].
Proof. split; vm_compute; reflexivity. Qed.
